(** * manus-mcp: the tool functions of [app/main.py]

    A shallow embedding of the two MCP tools of the server, [hello_world]
    and [google_search], together with the module-level configuration they
    read, the status endpoint [root] and the entry point of the script.
    Python integers are [Z], Python [str] is [string], [os.environ]
    is a finite map, and a coroutine body is a function on an explicit
    [World] that holds the module globals, the level of the logger, the
    records the logger accepted and the calls received by the search
    provider.

    The search provider ([googlesearch.search]) is third-party code: it is a
    parameter of the development, free to answer every call differently.
    The interpreter is CPython 3.11 with its default settings. *)

From Stdlib Require Import ZArith String Ascii List Lia.
From stdpp Require Import base option list strings gmap pretty.

Local Open Scope Z_scope.
Local Open Scope string_scope.

(** ** Exceptions and outcomes *)

(** The three classes of [concurrent.futures] that asyncio replaces by its
    own when it copies the state of a worker's future. *)
Inductive FuturesClass := CancelledError | TimeoutError | InvalidStateError.

(** A raised Python exception, as far as the code can observe it: its
    class, and the text that formatting it ([f"{e}"], line 77) and [str(e)]
    (line 78) evaluate to.  Either evaluation may itself raise (a [__str__]
    or [__format__] that fails), and the two are separate evaluations.

    The class is given up to what the code distinguishes:
    - [Exception_class name]: a class deriving from [Exception], other than
      the ones listed below;
    - [BaseException_class name]: a class deriving from [BaseException]
      only ([SystemExit], [KeyboardInterrupt], [GeneratorExit],
      [asyncio.CancelledError]);
    - [StopIteration_class]: exactly [StopIteration];
    - [StopIteration_subclass name value]: a proper subclass of
      [StopIteration]; [value] is the attribute [e.value];
    - [futures_class k fmt str]: exactly [concurrent.futures.k] (for
      [TimeoutError], since 3.11, the builtin class of that name); [fmt]
      and [str] are the texts of the instance of [asyncio.k] that asyncio
      builds from [e.args] in its place.

    A [Value] is an object as far as lines 74-75 observe it: [Links l] is
    the list of the strings [l]; [Sized n] is any other object, whose
    [len()] is [n]; [Unsized e] is an object whose [len()] raises [e]
    ([TypeError] for [None]). *)
Inductive PyExn : Type :=
| mkExn (cls : ExnClass) (fmt str : Text)
with Text : Type :=
| Str (s : string)
| StrRaises (e : PyExn)
with ExnClass : Type :=
| Exception_class (name : string)
| BaseException_class (name : string)
| StopIteration_class
| StopIteration_subclass (name : string) (value : Value)
| futures_class (k : FuturesClass) (copy_format copy_str : Text)
with Value : Type :=
| Links (links : list string)
| Sized (n : nat)
| Unsized (e : PyExn).

Definition exn_class (e : PyExn) : ExnClass := let (cls, _, _) := e in cls.
Definition exn_format (e : PyExn) : Text := let (_, fmt, _) := e in fmt.
Definition exn_str (e : PyExn) : Text := let (_, _, str) := e in str.

(** [isinstance(e, Exception)], the test of the clause at line 76. *)
Definition exn_is_Exception (e : PyExn) : bool :=
  match exn_class e with
  | BaseException_class _ => false
  | Exception_class _ | StopIteration_class | StopIteration_subclass _ _
  | futures_class _ _ _ => true
  end.

(** What evaluating a Python expression, a statement block or a coroutine
    ends in.  [ReturnedOther] is the return of an object that is not of the
    annotated type [A], [NeverReturns] a coroutine left waiting for ever. *)
Inductive Outcome (A : Type) : Type :=
| Returned (a : A)
| ReturnedOther
| Raised (e : PyExn)
| NeverReturns.
Arguments Returned {A} a.
Arguments ReturnedOther {A}.
Arguments Raised {A} e.
Arguments NeverReturns {A}.

(** The outcome is the return of a value of the annotated type. *)
Definition is_returned {A} (o : Outcome A) : bool :=
  match o with
  | Returned _ => true
  | ReturnedOther | Raised _ | NeverReturns => false
  end.

(** The asyncio exception that replaces an instance of [concurrent.futures.k]
    ([asyncio.futures._convert_future_exc]).  Since Python 3.8
    [asyncio.CancelledError] derives from [BaseException] only. *)
Definition asyncio_copy (k : FuturesClass) (fmt str : Text) : PyExn :=
  match k with
  | CancelledError => mkExn (BaseException_class "asyncio.CancelledError") fmt str
  | TimeoutError => mkExn (Exception_class "asyncio.TimeoutError") fmt str
  | InvalidStateError =>
      mkExn (Exception_class "asyncio.InvalidStateError") fmt str
  end.

(** What [await fut] does when the worker's call raised [e]. *)
Inductive Awaited :=
| AwaitRaises (e : PyExn)
| AwaitValue (v : Value)
| AwaitNever.

(** The worker stores whatever its call raised in its future; asyncio copies
    it to the future the coroutine awaits.  The copy replaces the three
    [concurrent.futures] classes; [Future.set_exception] refuses an exact
    [StopIteration], so that the awaited future is never completed; an
    instance of a subclass of [StopIteration], thrown into the coroutine,
    ends the await like the return of an iterator: the await evaluates to
    its value; any other exception is raised as it is. *)
Definition awaited (e : PyExn) : Awaited :=
  match exn_class e with
  | StopIteration_class => AwaitNever
  | StopIteration_subclass _ v => AwaitValue v
  | futures_class k fmt str => AwaitRaises (asyncio_copy k fmt str)
  | Exception_class _ | BaseException_class _ => AwaitRaises e
  end.

(** [len(v)] and [return v] in a coroutine annotated [-> List[str]]. *)
Definition py_len (v : Value) : Outcome nat :=
  match v with
  | Links l => Returned (length l)
  | Sized n => Returned n
  | Unsized e => Raised e
  end.

Definition return_value (v : Value) : Outcome (list string) :=
  match v with
  | Links l => Returned l
  | Sized _ | Unsized _ => ReturnedOther
  end.

(** ** [int(str)] and [os.getenv] *)

Module PyInt.

(** The characters [int] strips from both ends of ASCII text: TAB..CR and
    space. *)
Definition is_space (a : ascii) : bool :=
  let n := N_of_ascii a in
  ((9 <=? n)%N && (n <=? 13)%N) || (n =? 32)%N.

Definition digit_of (a : ascii) : option Z :=
  let n := N_of_ascii a in
  if ((48 <=? n)%N && (n <=? 57)%N)%bool then Some (Z.of_N (n - 48)) else None.

Fixpoint lstrip (s : string) : string :=
  match s with
  | String a s' => if is_space a then lstrip s' else s
  | EmptyString => EmptyString
  end.

Fixpoint rstrip (s : string) : string :=
  match s with
  | EmptyString => EmptyString
  | String a s' =>
      match rstrip s' with
      | EmptyString => if is_space a then EmptyString else String a EmptyString
      | r => String a r
      end
  end.

(** Decimal digits, a single underscore allowed between two digits.
    [prev] tells whether the previous character was a digit. *)
Fixpoint digits (acc : Z) (prev : bool) (s : string) : option Z :=
  match s with
  | EmptyString => if prev then Some acc else None
  | String a s' =>
      if Ascii.eqb a "_"%char
      then (if prev then digits acc false s' else None)
      else match digit_of a with
           | Some d => digits (10 * acc + d) true s'
           | None => None
           end
  end.

(** The number of digit characters of a text. *)
Fixpoint count_digits (s : string) : Z :=
  match s with
  | EmptyString => 0
  | String a s' =>
      (if digit_of a is Some _ then 1 else 0) + count_digits s'
  end.

(** [sys.int_info.default_max_str_digits]: a decimal text with more digits
    is refused. *)
Definition max_str_digits : Z := 4300.

Definition capped_digits (s : string) : option Z :=
  if (count_digits s <=? max_str_digits)%Z then digits 0 false s else None.

(** [int(s)] for a [str] argument in base 10, on ASCII text; [None]
    stands for [ValueError].  Decimal digits outside ASCII are not
    represented. *)
Definition int (s : string) : option Z :=
  match rstrip (lstrip s) with
  | String "-"%char r => Z.opp <$> capped_digits r
  | String "+"%char r => capped_digits r
  | t => capped_digits t
  end.

End PyInt.

(** [os.getenv(key, default)] on the process environment. *)
Definition getenv (environ : gmap string string) (key fallback : string) : string :=
  default fallback (environ !! key).

(** ** Module-level configuration (lines 20-22) *)

Record Globals := mkGlobals {
  GOOGLE_SEARCH_USER_AGENT : string;
  GOOGLE_SEARCH_MAX_RESULTS : Z
}.

(** An exception of class [name], deriving from [Exception], whose texts are
    [msg]. *)
Definition plain_exn (name msg : string) : PyExn :=
  mkExn (Exception_class name) (Str msg) (Str msg).

Definition ValueError (msg : string) : PyExn := plain_exn "ValueError" msg.

(** The two assignments of lines 21 and 22, executed when the import of the
    module reaches them; [environ] is the environment after [load_dotenv()].
    A value that [int] refuses makes line 22 raise [ValueError]; the message
    is the one of a plain text (no quote, backslash or control character)
    within the limit on digits. *)
Definition module_init (environ : gmap string string) : Outcome Globals :=
  let user_agent := getenv environ "GOOGLE_SEARCH_USER_AGENT" "Mozilla/5.0" in
  let text := getenv environ "GOOGLE_SEARCH_MAX_RESULTS" "10" in
  match PyInt.int text with
  | Some n => Returned (mkGlobals user_agent n)
  | None =>
      Raised (ValueError ("invalid literal for int() with base 10: '"
                          +:+ text +:+ "'"))
  end.

(** ** The world a tool call runs in *)

Inductive Level := INFO | ERROR.

(** [logging.INFO] and [logging.ERROR]. *)
Definition level_no (l : Level) : Z :=
  match l with INFO => 20 | ERROR => 40 end.

Record LogRecord := mkLog { log_level : Level; log_message : string }.

(** One call of [search(query, num_results=..., user_agent=...)]. *)
Record SearchCall := mkCall {
  call_query : string;
  call_num_results : Z;
  call_user_agent : string
}.

Record World := mkWorld {
  globals : Globals;                 (* the module's global names *)
  logger_level : Z;                  (* effective level of the logger "manus-mcp" *)
  log : list LogRecord;              (* records the logger accepted, oldest first *)
  provider_calls : list SearchCall   (* calls the provider received, oldest first *)
}.

(** [logger.isEnabledFor(level)]: the record is accepted when its level is
    not below the effective level of the logger (the level that line 15 gave
    the root logger, unless something else configured logging). *)
Definition accepts (w : World) (l : Level) : bool :=
  (logger_level w <=? level_no l)%Z.

Definition emit (r : LogRecord) (w : World) : World :=
  if accepts w (log_level r)
  then mkWorld (globals w) (logger_level w) (log w ++ [r]) (provider_calls w)
  else w.

Definition record_call (c : SearchCall) (w : World) : World :=
  mkWorld (globals w) (logger_level w) (log w) (provider_calls w ++ [c]).

(** [search] is a generator function: a call yields URLs one by one and
    either finishes or raises part-way (TypeError on the arguments, a network
    or parsing error, ...).  A call that never ends is not represented. *)
Record Generator := mkGen {
  gen_yields : list string;
  gen_raises : option PyExn
}.

(** The provider answers a call knowing the calls it received before. *)
Definition Provider := list SearchCall -> SearchCall -> Generator.

(** [list(g)]: all the items when the generator finishes; when it raises,
    the exception, and the items yielded so far are lost. *)
Definition py_list (g : Generator) : Outcome (list string) :=
  match gen_raises g with
  | None => Returned (gen_yields g)
  | Some e => Raised e
  end.

(** ** Coroutine bodies: state and exceptions *)

Definition Task (A : Type) : Type := World -> Outcome A * World.

Definition ret {A} (a : A) : Task A := fun w => (Returned a, w).

Definition bind {A B} (m : Task A) (k : A -> Task B) : Task B :=
  fun w =>
    match m w with
    | (Returned a, w') => k a w'
    | (ReturnedOther, w') => (ReturnedOther, w')
    | (Raised e, w') => (Raised e, w')
    | (NeverReturns, w') => (NeverReturns, w')
    end.

#[global] Instance Task_ret : MRet Task := @ret.
#[global] Instance Task_bind : MBind Task := fun A B k m => bind m k.

(** An expression evaluated inside a coroutine. *)
Definition eval {A} (o : Outcome A) : Task A := fun w => (o, w).

(** A text evaluated inside a coroutine: its string, or what it raises. *)
Definition eval_text (t : Text) : Task string :=
  eval (match t with Str s => Returned s | StrRaises e => Raised e end).

(** [try: body except Exception as e: handler(e)].  The clause names
    [Exception]: an exception that is not an instance of it passes through,
    and so does whatever the handler raises. *)
Definition try_except_Exception {A} (body : Task A) (handler : PyExn -> Task A)
  : Task A :=
  fun w =>
    match body w with
    | (Returned a, w') => (Returned a, w')
    | (ReturnedOther, w') => (ReturnedOther, w')
    | (Raised e, w') =>
        if exn_is_Exception e then handler e w' else (Raised e, w')
    | (NeverReturns, w') => (NeverReturns, w')
    end.

Definition read_globals : Task Globals := fun w => (Returned (globals w), w).

Definition logger_info (msg : string) : Task unit :=
  fun w => (Returned tt, emit (mkLog INFO msg) w).

Definition logger_error (msg : string) : Task unit :=
  fun w => (Returned tt, emit (mkLog ERROR msg) w).

Section Tools.

(** [googlesearch.search], the third-party provider. *)
Variable search : Provider.

(** The provider call itself: the call is recorded, the provider answers. *)
Definition call_search (c : SearchCall) : Task Generator :=
  fun w => (Returned (search (provider_calls w) c), record_call c w).

(** [await loop.run_in_executor(None, thunk)], for a thunk that makes a
    list of strings, on a running loop whose default executor takes the job
    and in a task that nobody cancels: the thunk runs to its end on a worker
    thread; the awaiting coroutine resumes with its list, or with what
    asyncio makes of the exception it raised ([awaited]): an exception, a
    value, or nothing ever. *)
Definition run_in_executor (thunk : Task (list string)) : Task Value :=
  fun w =>
    match thunk w with
    | (Returned l, w') => (Returned (Links l), w')
    | (ReturnedOther, w') => (ReturnedOther, w')
    | (Raised e, w') =>
        match awaited e with
        | AwaitRaises e' => (Raised e', w')
        | AwaitValue v => (Returned v, w')
        | AwaitNever => (NeverReturns, w')
        end
    | (NeverReturns, w') => (NeverReturns, w')
    end.

(** Lines 31-40. *)
Definition hello_world (name : string) : Task string :=
  logger_info ("Saying hello to " +:+ name) ;;
  mret ("Hello, " +:+ name +:+ "! Welcome to Manus MCP.").

(** Lines 43-78.  [num_results] is [None] for Python's [None]. *)
Definition google_search (query : string) (num_results : option Z)
  : Task (list string) :=
  num_results ←
    match num_results with
    | None => G ← read_globals; mret (GOOGLE_SEARCH_MAX_RESULTS G)
    | Some n => mret n
    end;
  logger_info ("Performing Google search for: " +:+ query
               +:+ " (max results: " +:+ pretty num_results +:+ ")") ;;
  try_except_Exception
    (links ← run_in_executor
               (G ← read_globals;
                g ← call_search
                      (mkCall query num_results (GOOGLE_SEARCH_USER_AGENT G));
                eval (py_list g));
     n ← eval (py_len links);
     logger_info ("Found " +:+ pretty n
                  +:+ " results for query: " +:+ query) ;;
     eval (return_value links))
    (fun e =>
       text ← eval_text (exn_format e);
       logger_error ("Error performing Google search: " +:+ text) ;;
       s ← eval_text (exn_str e);
       mret ["Error performing search: " +:+ s]).

(** How the framework binds the arguments of a tool call: an omitted
    argument takes the default of the signature. *)
Definition call_hello_world (name : option string) : Task string :=
  hello_world (default "World" name).

Definition call_google_search (query : string) (num_results : option (option Z))
  : Task (list string) :=
  google_search query (default None num_results).

(** A tool call as the server receives it, and a session of them: the calls
    are served one after the other, each in the world the previous one
    reached, whether that one returned, raised or is left waiting. *)
Inductive ToolCall :=
| CallHelloWorld (name : option string)
| CallGoogleSearch (query : string) (num_results : option (option Z)).

Definition serve (c : ToolCall) (w : World) : World :=
  match c with
  | CallHelloWorld name => snd (call_hello_world name w)
  | CallGoogleSearch query num_results =>
      snd (call_google_search query num_results w)
  end.

Definition session (calls : list ToolCall) (w : World) : World :=
  foldl (fun w c => serve c w) w calls.

End Tools.

(** ** Vocabulary of the statements *)

(** [hay.startswith(needle)] and [needle in hay] on [str]. *)
Fixpoint startswith (needle hay : string) : bool :=
  match needle, hay with
  | EmptyString, _ => true
  | String _ _, EmptyString => false
  | String a needle', String b hay' => Ascii.eqb a b && startswith needle' hay'
  end.

Fixpoint py_in (needle hay : string) : bool :=
  startswith needle hay ||
  match hay with
  | EmptyString => false
  | String _ hay' => py_in needle hay'
  end.

(** The limit a call works with after lines 58-59. *)
Definition effective_limit (w : World) (num_results : option Z) : Z :=
  default (GOOGLE_SEARCH_MAX_RESULTS (globals w)) num_results.

(** The provider call that [google_search query num_results] makes in [w]. *)
Definition search_call_of (w : World) (query : string) (num_results : option Z)
  : SearchCall :=
  mkCall query (effective_limit w num_results)
         (GOOGLE_SEARCH_USER_AGENT (globals w)).

(** What the provider answers to that call, once [list] has consumed it. *)
Definition provider_outcome (search : Provider) (w : World) (query : string)
    (num_results : option Z) : Outcome (list string) :=
  py_list (search (provider_calls w) (search_call_of w query num_results)).

(** The records of lines 61, 74 and 77. *)
Definition announcement (w : World) (query : string) (num_results : option Z)
  : LogRecord :=
  mkLog INFO ("Performing Google search for: " +:+ query +:+ " (max results: "
              +:+ pretty (effective_limit w num_results) +:+ ")").

Definition found_record (query : string) (n : nat) : LogRecord :=
  mkLog INFO ("Found " +:+ pretty n +:+ " results for query: " +:+ query).

Definition error_record (text : string) : LogRecord :=
  mkLog ERROR ("Error performing Google search: " +:+ text).

(** The world when the await of line 66 is over: the announcement is
    logged, the provider has been called. *)
Definition after_call (w : World) (query : string) (num_results : option Z)
  : World :=
  record_call (search_call_of w query num_results)
              (emit (announcement w query num_results) w).

(** The one-element list of line 78, [s] being [str(e)]. *)
Definition error_result (s : string) : list string :=
  ["Error performing search: " +:+ s].

(** The shape of the list of line 78. *)
Definition error_shaped (r : list string) : Prop :=
  exists msg, r = ["Error performing search: " +:+ msg].

(** The exception [e'] reaches the handler of line 76 and both texts the
    handler takes of it evaluate: [text] at line 77, [s] at line 78. *)
Definition handled (e' : PyExn) (text s : string) : Prop :=
  exn_is_Exception e' = true /\ exn_format e' = Str text /\ exn_str e' = Str s.

(** What lines 76-78 make of the exception the await raised. *)
Definition after_await (e' : PyExn) : Outcome (list string) :=
  if exn_is_Exception e'
  then match exn_format e' with
       | StrRaises x => Raised x
       | Str _ =>
           match exn_str e' with
           | StrRaises x => Raised x
           | Str s => Returned (error_result s)
           end
       end
  else Raised e'.

(** What lines 74-78 make of the value the await evaluated to. *)
Definition after_value (v : Value) : Outcome (list string) :=
  match v with
  | Links l => Returned l
  | Sized _ => ReturnedOther
  | Unsized e => after_await e
  end.

(** The result of an invocation, given the answer of the provider. *)
Definition result_of_answer (answer : Outcome (list string))
  : Outcome (list string) :=
  match answer with
  | Returned links => Returned links
  | ReturnedOther => ReturnedOther
  | Raised e =>
      match awaited e with
      | AwaitRaises e' => after_await e'
      | AwaitValue v => after_value v
      | AwaitNever => NeverReturns
      end
  | NeverReturns => NeverReturns
  end.

(** The exception raised inside the [try] of lines 65-75, if any: by the
    await, or by [len] on the value of the await. *)
Definition raised_in_try (answer : Outcome (list string)) : option PyExn :=
  match answer with
  | Raised e =>
      match awaited e with
      | AwaitRaises e' => Some e'
      | AwaitValue (Unsized x) => Some x
      | AwaitValue (Links _) | AwaitValue (Sized _) | AwaitNever => None
      end
  | Returned _ | ReturnedOther | NeverReturns => None
  end.

(** Lines 76-78 on an exception raised inside the [try], in the world [w]
    reached by then. *)
Definition except_clause (e' : PyExn) (w : World)
  : Outcome (list string) * World :=
  if exn_is_Exception e'
  then match exn_format e' with
       | StrRaises x => (Raised x, w)
       | Str text =>
           match exn_str e' with
           | StrRaises x => (Raised x, emit (error_record text) w)
           | Str s => (Returned (error_result s), emit (error_record text) w)
           end
       end
  else (Raised e', w).

(** ** Concrete providers, exceptions and worlds used in the examples *)

(** The globals of an environment that sets neither variable, and the level
    [LOG_LEVEL] defaults to. *)
Definition default_world : World :=
  mkWorld (mkGlobals "Mozilla/5.0" 10) 20 [] [].

(** The same with the logger at [WARNING]. *)
Definition quiet_world : World :=
  mkWorld (mkGlobals "Mozilla/5.0" 10) 30 [] [].

(** Four URLs whatever the limit asked for. *)
Definition four_results : Provider :=
  fun _ _ => mkGen ["a.com"; "b.com"; "c.com"; "d.com"] None.

(** A provider that ends the interpreter: [sys.exit(code)]. *)
Definition SystemExit (code : string) : PyExn :=
  mkExn (BaseException_class "SystemExit") (Str code) (Str code).
Definition exiting (code : string) : Provider :=
  fun _ _ => mkGen [] (Some (SystemExit code)).

(** A provider that fails with an HTTP error after one result. *)
Definition HTTPError (msg : string) : PyExn := plain_exn "HTTPError" msg.
Definition rate_limited : Provider :=
  fun _ _ => mkGen ["a.com"] (Some (HTTPError "429 Client Error: Too Many Requests")).

(** A provider that fails on the first call it ever receives and answers
    every later one. *)
Definition flaky : Provider :=
  fun earlier _ =>
    match earlier with
    | [] => mkGen [] (Some (HTTPError "503 Server Error"))
    | _ :: _ => mkGen ["a.com"; "b.com"] None
    end.

(** A provider that yields its own arguments back. *)
Definition echo : Provider :=
  fun _ c => mkGen [call_query c; pretty (call_num_results c); call_user_agent c] None.

(** A provider that raises [e] before it yields anything, and one that
    yields [links] and finishes. *)
Definition raising (e : PyExn) : Provider := fun _ _ => mkGen [] (Some e).
Definition answering (links : list string) : Provider :=
  fun _ _ => mkGen links None.

(** [concurrent.futures.CancelledError()], [StopIteration()], an exception
    whose [__str__] raises [RuntimeError], and an instance of a subclass of
    [StopIteration] made with the given value ([None] when made without). *)
Definition futures_CancelledError : PyExn :=
  mkExn (futures_class CancelledError (Str "") (Str "")) (Str "") (Str "").
Definition StopIteration : PyExn := mkExn StopIteration_class (Str "") (Str "").
Definition unprintable : PyExn :=
  mkExn (Exception_class "Unprintable")
        (StrRaises (plain_exn "RuntimeError" "no text"))
        (StrRaises (plain_exn "RuntimeError" "no text")).
Definition MyStop (value : Value) (text : string) : PyExn :=
  mkExn (StopIteration_subclass "MyStop" value) (Str text) (Str text).
Definition None_value : Value :=
  Unsized (plain_exn "TypeError" "object of type 'NoneType' has no len()").

(** ** The status endpoint and the entry point *)

(** The JSON object of lines 84-92. *)
Record ServerInfo := mkInfo {
  info_name : string;
  info_version : string;
  info_description : string;
  info_capabilities : list string
}.

(** Lines 81-92. *)
Definition root : Task ServerInfo :=
  mret (mkInfo "Manus MCP Server" "0.1.0"
          "An MCP server that can browse the web, perform search queries, and execute code."
          ["hello_world"; "google_search"]).

(** The name a tool is registered and called under: [@mcp_server.tool()]
    without arguments (lines 31 and 43) takes the name of the function. *)
Definition tool_name (c : ToolCall) : string :=
  match c with
  | CallHelloWorld _ => "hello_world"
  | CallGoogleSearch _ _ => "google_search"
  end.

(** The keyword arguments of [uvicorn.run] at line 96. *)
Record UvicornArgs := mkUvicorn {
  uvicorn_app : string;
  uvicorn_host : string;
  uvicorn_port : Z;
  uvicorn_reload : bool
}.

(** Line 96, when the script reaches it, up to the call of [uvicorn.run]:
    the arguments it is called with, or the [ValueError] of [int]. *)
Definition main_args (environ : gmap string string) : Outcome UvicornArgs :=
  let host := getenv environ "MCP_HOST" "127.0.0.1" in
  let text := getenv environ "MCP_PORT" "8000" in
  match PyInt.int text with
  | Some port => Returned (mkUvicorn "app.main:app" host port true)
  | None =>
      Raised (ValueError ("invalid literal for int() with base 10: '"
                          +:+ text +:+ "'"))
  end.

(** ** Vocabulary of the statements on sessions and on texts *)

Definition is_search_call (c : ToolCall) : bool :=
  match c with CallGoogleSearch _ _ => true | CallHelloWorld _ => false end.

(** The provider calls a session asks for, in order, its limits resolved
    against the configuration of [w]. *)
Definition session_search_calls (w : World) (calls : list ToolCall)
  : list SearchCall :=
  omap (fun c =>
          match c with
          | CallGoogleSearch query num_results =>
              Some (search_call_of w query (default None num_results))
          | CallHelloWorld _ => None
          end) calls.

(** [c.isspace()] on an ASCII character: TAB..CR, FS..US and space. *)
Definition isspace (a : ascii) : bool :=
  let n := N_of_ascii a in
  ((9 <=? n)%N && (n <=? 13)%N) || ((28 <=? n)%N && (n <=? 32)%N).

(** [s.isspace() or s == ""] on ASCII text. *)
Fixpoint all_space (s : string) : bool :=
  match s with
  | EmptyString => true
  | String a s' => isspace a && all_space s'
  end.

Fixpoint all_digits (s : string) : bool :=
  match s with
  | EmptyString => true
  | String a s' => bool_decide (is_Some (PyInt.digit_of a)) && all_digits s'
  end.

(** ** Strings *)

Lemma startswith_append (n post : string) : startswith n (n +:+ post) = true.
Proof.
  induction n as [|a n IH]; simpl.
  - reflexivity.
  - rewrite Ascii.eqb_refl. exact IH.
Qed.

Lemma startswith_inv (n h : string) :
  startswith n h = true -> exists post, h = n +:+ post.
Proof.
  revert h. induction n as [|a n IH]; intros h Hp.
  - exists h. reflexivity.
  - destruct h as [|b h]; simpl in Hp; [discriminate|].
    apply andb_true_iff in Hp as [Hab Hp].
    apply Ascii.eqb_eq in Hab as ->.
    destruct (IH h Hp) as [post ->]. exists post. reflexivity.
Qed.

(** [py_in] is the substring relation. *)
Lemma py_in_spec (needle hay : string) :
  py_in needle hay = true <-> exists pre post, hay = pre +:+ needle +:+ post.
Proof.
  split.
  - induction hay as [|b hay IH]; simpl; intros H.
    + apply orb_true_iff in H as [H|H]; [|discriminate].
      apply startswith_inv in H as [post ->]. exists EmptyString, post. reflexivity.
    + apply orb_true_iff in H as [H|H].
      * apply startswith_inv in H as [post ->]. exists EmptyString, post. reflexivity.
      * destruct (IH H) as (pre & post & ->).
        exists (String b pre), post. reflexivity.
  - intros (pre & post & ->).
    induction pre as [|b pre IH].
    + change (EmptyString +:+ needle +:+ post) with (needle +:+ post).
      destruct (needle +:+ post) eqn:E; simpl; rewrite <- E;
        rewrite startswith_append; reflexivity.
    + change (String b pre +:+ needle +:+ post)
        with (String b (pre +:+ needle +:+ post)).
      simpl. rewrite IH. apply orb_true_r.
Qed.

Lemma error_result_mentions_error (s : string) :
  Forall (fun x => py_in "Error performing search" x = true) (error_result s).
Proof.
  constructor; [|constructor].
  apply py_in_spec. exists EmptyString, (": " +:+ s). reflexivity.
Qed.

(** ** What one invocation does *)

Lemma emit_globals r w : globals (emit r w) = globals w.
Proof. unfold emit. destruct (accepts _ _); reflexivity. Qed.

Lemma emit_logger_level r w : logger_level (emit r w) = logger_level w.
Proof. unfold emit. destruct (accepts _ _); reflexivity. Qed.

Lemma emit_provider_calls r w : provider_calls (emit r w) = provider_calls w.
Proof. unfold emit. destruct (accepts _ _); reflexivity. Qed.

(** The log after a logger call: one more record when the level of the
    logger admits it. *)
Lemma emit_log r w :
  log (emit r w)
  = (log w ++ if accepts w (log_level r) then [r] else [])%list.
Proof.
  unfold emit. destruct (accepts _ _); [reflexivity|].
  rewrite app_nil_r. reflexivity.
Qed.

(** The invocation, case by case on the provider's answer. *)
Lemma google_search_run search query num_results w :
  google_search search query num_results w =
  match provider_outcome search w query num_results with
  | Returned links =>
      (Returned links,
       emit (found_record query (length links)) (after_call w query num_results))
  | ReturnedOther => (ReturnedOther, after_call w query num_results)
  | Raised e =>
      match awaited e with
      | AwaitNever => (NeverReturns, after_call w query num_results)
      | AwaitValue (Links l) =>
          (Returned l,
           emit (found_record query (length l)) (after_call w query num_results))
      | AwaitValue (Sized n) =>
          (ReturnedOther,
           emit (found_record query n) (after_call w query num_results))
      | AwaitValue (Unsized x) =>
          except_clause x (after_call w query num_results)
      | AwaitRaises e' => except_clause e' (after_call w query num_results)
      end
  | NeverReturns => (NeverReturns, after_call w query num_results)
  end.
Proof.
  assert (Hclause : forall e' w1,
    (if exn_is_Exception e'
     then (text ← eval_text (exn_format e');
           logger_error ("Error performing Google search: " +:+ text) ;;
           s ← eval_text (exn_str e');
           mret ["Error performing search: " +:+ s]) w1
     else (Raised e', w1))
    = except_clause e' w1).
  { intros e' w1. unfold except_clause, logger_error, eval_text, eval, mbind,
      mret, Task_bind, Task_ret, bind, ret.
    destruct (exn_is_Exception e'); [|reflexivity].
    destruct (exn_format e') as [text|x]; [|reflexivity].
    destruct (exn_str e') as [s|x]; reflexivity. }
  unfold provider_outcome, after_call, search_call_of, announcement,
    effective_limit.
  unfold google_search, try_except_Exception, run_in_executor, call_search,
    read_globals, logger_info, eval, mbind, mret,
    Task_bind, Task_ret, bind, ret.
  destruct num_results as [n|];
    cbn [default from_option id];
    rewrite ?emit_globals, ?emit_provider_calls;
    (destruct (py_list _) as [links| |e|]; [reflexivity|reflexivity| |reflexivity];
     destruct (awaited e) as [e'|[l|m|x]|];
     [apply Hclause|reflexivity|reflexivity|apply Hclause|reflexivity]).
Qed.

Lemma after_call_globals w query num_results :
  globals (after_call w query num_results) = globals w.
Proof. unfold after_call. cbn. apply emit_globals. Qed.

Lemma after_call_logger_level w query num_results :
  logger_level (after_call w query num_results) = logger_level w.
Proof. unfold after_call. cbn. apply emit_logger_level. Qed.

Lemma after_call_provider_calls w query num_results :
  provider_calls (after_call w query num_results)
  = (provider_calls w ++ [search_call_of w query num_results])%list.
Proof. unfold after_call. cbn. rewrite emit_provider_calls. reflexivity. Qed.

Lemma after_call_log w query num_results :
  log (after_call w query num_results)
  = (log w ++ if accepts w INFO then [announcement w query num_results] else [])%list.
Proof. unfold after_call. cbn [record_call log]. apply emit_log. Qed.

(** Case analysis on every way an invocation can go. *)
Ltac run_cases :=
  rewrite ?google_search_run;
  repeat match goal with
         | |- context [match provider_outcome ?s ?w ?q ?n with _ => _ end] =>
             destruct (provider_outcome s w q n) as [?links| |?e|] eqn:?Hanswer
         | |- context [match awaited ?e with _ => _ end] =>
             destruct (awaited e) as [?e'|[?l|?m|?x]|] eqn:?Hawait
         | |- context [except_clause ?e ?w] => unfold except_clause
         | |- context [if exn_is_Exception ?e then _ else _] =>
             destruct (exn_is_Exception e) eqn:?Hexn
         | |- context [match exn_format ?e with _ => _ end] =>
             destruct (exn_format e) as [?text|?x] eqn:?Hformat
         | |- context [match exn_str ?e with _ => _ end] =>
             destruct (exn_str e) as [?s|?x] eqn:?Hstr
         end.

Lemma google_search_result search query num_results w :
  fst (google_search search query num_results w)
  = result_of_answer (provider_outcome search w query num_results).
Proof.
  unfold result_of_answer, after_value, after_await. run_cases; reflexivity.
Qed.

Lemma google_search_calls search query num_results w :
  provider_calls (snd (google_search search query num_results w)) =
  (provider_calls w ++ [search_call_of w query num_results])%list.
Proof.
  run_cases; cbn [snd];
    rewrite ?emit_provider_calls; apply after_call_provider_calls.
Qed.

Lemma google_search_globals search query num_results w :
  globals (snd (google_search search query num_results w)) = globals w.
Proof.
  run_cases; cbn [snd]; rewrite ?emit_globals; apply after_call_globals.
Qed.

Lemma google_search_logger_level search query num_results w :
  logger_level (snd (google_search search query num_results w)) = logger_level w.
Proof.
  run_cases; cbn [snd]; rewrite ?emit_logger_level;
    apply after_call_logger_level.
Qed.

(** ** The error path *)

(** An exception of the provider that is not an instance of [Exception]
    leaves [google_search] as it is. *)
Lemma google_search_propagates search query num_results w e :
  provider_outcome search w query num_results = Raised e ->
  exn_is_Exception e = false ->
  fst (google_search search query num_results w) = Raised e.
Proof.
  intros Hraise Hexn. rewrite google_search_result, Hraise.
  unfold result_of_answer, awaited. unfold exn_is_Exception in Hexn.
  destruct (exn_class e) eqn:Hclass; try discriminate Hexn.
  unfold after_await, exn_is_Exception. rewrite Hclass. reflexivity.
Qed.

(** C1, as the code has it: when the provider raises during the search call
    and the exception the await of line 66 then raises (the provider's own,
    or the asyncio exception that replaces it) is an instance of [Exception]
    whose formatting (line 77) and [str] (line 78) evaluate,
    [google_search] returns a list of length exactly 1 whose element is
    ["Error performing search: " + str(e)], which contains the substring
    "Error performing search"; and when the provider raises an exception
    that is not an instance of [Exception], that exception leaves
    [google_search]. *)
Theorem google_search_error_result search query num_results w e :
  provider_outcome search w query num_results = Raised e ->
  (forall e' text s,
     awaited e = AwaitRaises e' ->
     handled e' text s ->
     exists r,
       fst (google_search search query num_results w) = Returned r /\
       r = error_result s /\
       length r = 1%nat /\
       Forall (fun x => py_in "Error performing search" x = true) r) /\
  (exn_is_Exception e = false ->
   fst (google_search search query num_results w) = Raised e).
Proof.
  intros Hraise. split.
  - intros e' text s Hawait (Hexn & Hformat & Hstr). exists (error_result s).
    rewrite google_search_result, Hraise.
    unfold result_of_answer, after_await. rewrite Hawait, Hexn, Hformat, Hstr.
    split; [reflexivity|]. split; [reflexivity|]. split; [reflexivity|].
    apply error_result_mentions_error.
  - apply google_search_propagates. exact Hraise.
Qed.

Lemma google_search_error_result_rate_limited :
  exists r,
    fst (google_search rate_limited "weather today" (Some 3) default_world)
      = Returned r /\
    r = error_result "429 Client Error: Too Many Requests" /\
    length r = 1%nat /\
    Forall (fun x => py_in "Error performing search" x = true) r.
Proof.
  apply (proj1 (google_search_error_result rate_limited "weather today" (Some 3)
                  default_world
                  (HTTPError "429 Client Error: Too Many Requests") eq_refl)
           (HTTPError "429 Client Error: Too Many Requests")
           "429 Client Error: Too Many Requests"
           "429 Client Error: Too Many Requests").
  - reflexivity.
  - repeat split; reflexivity.
Defined.

(** C1 as worded ("any exception") fails: a provider that raises
    [SystemExit], which is not an instance of [Exception], is not caught by
    the handler of line 76; the exception leaves [google_search] and no list
    is returned. *)
Lemma google_search_SystemExit_escapes :
  provider_outcome (exiting "1") default_world "weather today" (Some 3)
    = Raised (SystemExit "1") /\
  fst (google_search (exiting "1") "weather today" (Some 3) default_world)
    = Raised (SystemExit "1") /\
  ~ (exists s,
       fst (google_search (exiting "1") "weather today" (Some 3) default_world)
         = Returned [s] /\
       py_in "Error performing search" s = true).
Proof.
  split; [reflexivity|]. split; [reflexivity|].
  intros (s & Hs & _). vm_compute in Hs. discriminate Hs.
Qed.

(** Three more ways in which an exception of the provider gives no error
    list, although each is an instance of [Exception]: the await turns
    [concurrent.futures.CancelledError] into [asyncio.CancelledError], which
    the handler does not catch; after an exact [StopIteration] the await
    never completes; and an exception whose [__str__] raises makes the
    handler raise at line 77, before anything is logged at [ERROR]. *)
Example google_search_other_escapes :
  exn_is_Exception futures_CancelledError = true /\
  fst (google_search (raising futures_CancelledError) "news" None default_world)
    = Raised (asyncio_copy CancelledError (Str "") (Str "")) /\
  exn_is_Exception StopIteration = true /\
  fst (google_search (raising StopIteration) "news" None default_world)
    = NeverReturns /\
  exn_is_Exception unprintable = true /\
  google_search (raising unprintable) "news" None default_world
    = (Raised (plain_exn "RuntimeError" "no text"),
       after_call default_world "news" None).
Proof. repeat split; reflexivity. Qed.

(** An instance of a subclass of [StopIteration] is not raised by the await
    at all: the await evaluates to its value.  Made without value, [len]
    raises [TypeError] on [None] and it is that error the handler reports;
    made with a list of strings, the list is returned as if the provider
    had yielded it; made with another sized object (the string "abc"), that
    object is returned. *)
Example google_search_StopIteration_subclass :
  google_search (raising (MyStop None_value "")) "news" None default_world
    = (Returned (error_result "object of type 'NoneType' has no len()"),
       emit (error_record "object of type 'NoneType' has no len()")
         (after_call default_world "news" None)) /\
  fst (google_search (raising (MyStop (Links ["a.com"]) "['a.com']")) "news"
         None default_world)
    = Returned ["a.com"] /\
  fst (google_search (raising (MyStop (Sized 3) "abc")) "news" None
         default_world)
    = ReturnedOther.
Proof. repeat split; reflexivity. Qed.

(** A [concurrent.futures.TimeoutError] of the provider is caught as the
    [asyncio.TimeoutError] built from its arguments, and it is the text of
    that copy which is returned and logged. *)
Example google_search_TimeoutError_handled :
  let e := mkExn (futures_class TimeoutError (Str "[Errno 110] timed out")
                    (Str "[Errno 110] timed out"))
                 (Str "[Errno 110] timed out: 'host'")
                 (Str "[Errno 110] timed out: 'host'") in
  google_search (raising e) "news" (Some 1) default_world
  = (Returned (error_result "[Errno 110] timed out"),
     emit (error_record "[Errno 110] timed out")
       (after_call default_world "news" (Some 1))).
Proof. reflexivity. Qed.

(** C2, as the code has it: the invocation returns a list of strings whenever
    the provider returns, and whenever it raises and the exception the await
    then raises is an instance of [Exception] whose formatting and [str]
    evaluate; no such exception reaches the caller: the list is the
    provider's, or the error-shaped one.  An exception of the provider that
    is not an instance of [Exception] is propagated. *)
Theorem google_search_total_on_Exception search query num_results w :
  ((forall e, provider_outcome search w query num_results = Raised e ->
              exists e' text s, awaited e = AwaitRaises e' /\ handled e' text s) ->
   exists links,
     fst (google_search search query num_results w) = Returned links /\
     (provider_outcome search w query num_results = Returned links \/
      (exists e, provider_outcome search w query num_results = Raised e) /\
      error_shaped links)) /\
  (forall e, provider_outcome search w query num_results = Raised e ->
             exn_is_Exception e = false ->
             fst (google_search search query num_results w) = Raised e).
Proof.
  split; [|intros e; apply google_search_propagates].
  intros Hcaught. rewrite google_search_result. unfold result_of_answer.
  destruct (provider_outcome _ _ _ _) as [links| |e|] eqn:Hp.
  - exists links. split; [reflexivity | left; reflexivity].
  - unfold provider_outcome, py_list in Hp.
    destruct (gen_raises _); discriminate Hp.
  - destruct (Hcaught e eq_refl) as (e' & text & s & -> & Hexn & Hformat & Hstr).
    unfold after_await. rewrite Hexn, Hformat, Hstr.
    exists (error_result s). split; [reflexivity|]. right.
    split; [exists e; reflexivity | exists s; reflexivity].
  - unfold provider_outcome, py_list in Hp.
    destruct (gen_raises _); discriminate Hp.
Qed.

Lemma google_search_total_on_Exception_flaky :
  exists links,
    fst (google_search flaky "news" None default_world) = Returned links /\
    (provider_outcome flaky default_world "news" None = Returned links \/
     (exists e, provider_outcome flaky default_world "news" None = Raised e) /\
     error_shaped links).
Proof.
  apply (proj1 (google_search_total_on_Exception flaky "news" None default_world)).
  intros e He. vm_compute in He. injection He as <-.
  exists (HTTPError "503 Server Error"), "503 Server Error", "503 Server Error".
  repeat split; reflexivity.
Defined.

(** C2 as worded fails on the same handler: the [SystemExit] of a provider
    that exits is propagated to the caller of [google_search]. *)
Lemma google_search_not_total :
  fst (google_search (exiting "0") "news" None default_world)
    = Raised (SystemExit "0") /\
  is_returned (fst (google_search (exiting "0") "news" None default_world))
    = false.
Proof. split; reflexivity. Qed.

(** ** The success path *)

(** C5: on a successful invocation [google_search] returns exactly the list
    of URLs the provider yielded, in the provider's order. *)
Theorem google_search_returns_provider_links search query num_results w links :
  provider_outcome search w query num_results = Returned links ->
  fst (google_search search query num_results w) = Returned links.
Proof.
  intros Hp. rewrite google_search_result, Hp. reflexivity.
Qed.

Lemma google_search_returns_provider_links_four :
  fst (google_search four_results "weather today" None default_world)
    = Returned ["a.com"; "b.com"; "c.com"; "d.com"].
Proof.
  apply (google_search_returns_provider_links four_results "weather today" None
           default_world).
  reflexivity.
Defined.

(** C3, as the code has it: a successful invocation with [num_results = N]
    returns the very list the provider yielded, of the same length, whether
    or not that length exceeds [N]: the invoker does not truncate, and the
    result has at most [N] elements exactly when the provider yielded at
    most [N]. *)
Theorem google_search_length_of_provider search query N w links :
  provider_outcome search w query (Some N) = Returned links ->
  exists r,
    fst (google_search search query (Some N) w) = Returned r /\
    r = links /\
    length r = length links /\
    (Z.of_nat (length r) <= N <-> Z.of_nat (length links) <= N).
Proof.
  intros Hp. exists links.
  rewrite google_search_result, Hp.
  split; [reflexivity|]. split; [reflexivity|]. split; reflexivity.
Qed.

Lemma google_search_length_of_provider_four :
  exists r,
    fst (google_search four_results "weather today" (Some 3) default_world)
      = Returned r /\
    r = ["a.com"; "b.com"; "c.com"; "d.com"] /\
    length r = length ["a.com"; "b.com"; "c.com"; "d.com"] /\
    (Z.of_nat (length r) <= 3
     <-> Z.of_nat (length ["a.com"; "b.com"; "c.com"; "d.com"]) <= 3).
Proof.
  apply (google_search_length_of_provider four_results "weather today" 3
           default_world ["a.com"; "b.com"; "c.com"; "d.com"]).
  reflexivity.
Defined.

(** C3 as worded fails: with a non-empty query and limit 3, a provider that
    yields four URLs makes the invocation return all four. *)
Lemma google_search_four_results_for_limit_three :
  "weather today" <> "" /\
  fst (google_search four_results "weather today" (Some 3) default_world)
    = Returned ["a.com"; "b.com"; "c.com"; "d.com"] /\
  ~ (Z.of_nat (length ["a.com"; "b.com"; "c.com"; "d.com"]) <= 3).
Proof.
  split; [discriminate|]. split; [reflexivity|]. simpl. lia.
Qed.

(** ** The default limit *)



(** With the variable set to 25, an omitted limit sends 25 to the provider;
    a text [int] refuses makes line 22 raise. *)
Example module_init_override :
  module_init (<["GOOGLE_SEARCH_MAX_RESULTS" := " 25 "]> ∅)
    = Returned (mkGlobals "Mozilla/5.0" 25) /\
  fst (call_google_search echo "news" None
         (mkWorld (mkGlobals "Mozilla/5.0" 25) 20 [] []))
    = Returned ["news"; "25"; "Mozilla/5.0"] /\
  is_returned (module_init (<["GOOGLE_SEARCH_MAX_RESULTS" := "ten"]> ∅)) = false.
Proof. repeat split; vm_compute; reflexivity. Qed.

(** ** Calls to the provider *)

(** C6, as the code has it: every invocation calls the provider exactly once,
    whatever the provider answers, and the answer to that one call decides
    the result: the provider's list; the one-element error list when the
    exception the await raises is an instance of [Exception] whose texts
    evaluate; otherwise an exception or no return at all; in each case
    without a second call. *)
Theorem google_search_calls_provider_once search query num_results w :
  let run := google_search search query num_results w in
  provider_calls (snd run)
    = (provider_calls w ++ [search_call_of w query num_results])%list /\
  length (provider_calls (snd run)) = S (length (provider_calls w)) /\
  fst run = result_of_answer (provider_outcome search w query num_results).
Proof.
  cbn zeta. rewrite google_search_calls, google_search_result.
  split; [reflexivity|]. split; [|reflexivity].
  rewrite length_app. simpl. lia.
Qed.

(** C6 as worded fails in its last clause: when the provider raises
    [SystemExit] the provider has been called once, and the invocation
    returns no error-shaped list. *)
Lemma google_search_no_error_result_on_SystemExit :
  provider_outcome (exiting "2") default_world "python" (Some 5)
    = Raised (SystemExit "2") /\
  length (provider_calls
            (snd (google_search (exiting "2") "python" (Some 5) default_world)))
    = 1%nat /\
  fst (google_search (exiting "2") "python" (Some 5) default_world)
    <> Returned (error_result "2") /\
  is_returned (fst (google_search (exiting "2") "python" (Some 5) default_world))
    = false.
Proof.
  split; [reflexivity|]. split; [reflexivity|]. split; [|reflexivity].
  vm_compute. discriminate.
Qed.

(** No retry: the provider that fails on its first call only is not called
    again by the invocation that saw the failure; the next invocation, which
    calls it a second time, gets its results. *)
Example google_search_flaky_no_retry :
  let first := google_search flaky "news" (Some 2) default_world in
  let second := google_search flaky "news" (Some 2) (snd first) in
  fst first = Returned (error_result "503 Server Error") /\
  length (provider_calls (snd first)) = 1%nat /\
  fst second = Returned ["a.com"; "b.com"] /\
  length (provider_calls (snd second)) = 2%nat.
Proof. cbn zeta. repeat split; reflexivity. Qed.

(** C7: [google_search] validates nothing: whatever the query (the empty
    string included) and whatever the integer [num_results] (zero and
    negative included), the provider receives exactly that query and that
    number, and the answer of the provider alone decides the result. *)
Theorem google_search_no_validation search query n w :
  let run := google_search search query (Some n) w in
  provider_calls (snd run)
    = (provider_calls w
       ++ [mkCall query n (GOOGLE_SEARCH_USER_AGENT (globals w))])%list /\
  fst run =
    result_of_answer
      (py_list (search (provider_calls w)
                  (mkCall query n (GOOGLE_SEARCH_USER_AGENT (globals w))))).
Proof.
  cbn zeta. rewrite google_search_calls, google_search_result.
  split; reflexivity.
Qed.

Example google_search_empty_query_zero :
  google_search echo "" (Some 0) default_world
  = (Returned [""; "0"; "Mozilla/5.0"],
     mkWorld (globals default_world) 20
       [mkLog INFO "Performing Google search for:  (max results: 0)";
        mkLog INFO "Found 3 results for query: "]
       [mkCall "" 0 "Mozilla/5.0"]).
Proof. vm_compute. reflexivity. Qed.

Example google_search_negative_limit :
  fst (google_search echo "" (Some (-7)) default_world)
    = Returned [""; "-7"; "Mozilla/5.0"] /\
  provider_calls (snd (google_search echo "" (Some (-7)) default_world))
    = [mkCall "" (-7) "Mozilla/5.0"].
Proof. split; vm_compute; reflexivity. Qed.

(** ** [hello_world] *)

(** C9: [hello_world(name)] returns ["Hello, " + name + "! Welcome to Manus
    MCP."], the omitted name is "World", and the call never raises. *)
Theorem hello_world_greeting (name : string) (w : World) :
  fst (hello_world name w)
    = Returned ("Hello, " +:+ name +:+ "! Welcome to Manus MCP.") /\
  call_hello_world (Some name) w = hello_world name w /\
  call_hello_world None w = hello_world "World" w /\
  fst (call_hello_world None w) = Returned "Hello, World! Welcome to Manus MCP." /\
  (forall arg, is_returned (fst (call_hello_world arg w)) = true).
Proof.
  repeat split; try reflexivity.
Qed.

(** The record of line 39 is kept when the logger admits [INFO], dropped
    when it is set to [WARNING]. *)
Example hello_world_logs :
  hello_world "Ada" default_world
  = (Returned "Hello, Ada! Welcome to Manus MCP.",
     mkWorld (globals default_world) 20 [mkLog INFO "Saying hello to Ada"] []) /\
  hello_world "Ada" quiet_world
  = (Returned "Hello, Ada! Welcome to Manus MCP.", quiet_world).
Proof. split; reflexivity. Qed.

(** ** The configuration is read-only *)

(** C10: no tool call changes the module configuration: after every call of
    [google_search] or [hello_world], with the argument given or omitted,
    [GOOGLE_SEARCH_MAX_RESULTS] and [GOOGLE_SEARCH_USER_AGENT] are what they
    were before. *)
Theorem tools_preserve_globals search query (num_results : option (option Z))
    (name : option string) (w : World) :
  let w1 := snd (call_google_search search query num_results w) in
  let w2 := snd (call_hello_world name w) in
  globals w1 = globals w /\
  GOOGLE_SEARCH_MAX_RESULTS (globals w1) = GOOGLE_SEARCH_MAX_RESULTS (globals w) /\
  GOOGLE_SEARCH_USER_AGENT (globals w1) = GOOGLE_SEARCH_USER_AGENT (globals w) /\
  globals w2 = globals w /\
  GOOGLE_SEARCH_MAX_RESULTS (globals w2) = GOOGLE_SEARCH_MAX_RESULTS (globals w) /\
  GOOGLE_SEARCH_USER_AGENT (globals w2) = GOOGLE_SEARCH_USER_AGENT (globals w).
Proof.
  cbn zeta. unfold call_google_search.
  rewrite google_search_globals.
  assert (globals (snd (call_hello_world name w)) = globals w) as ->
    by apply emit_globals.
  repeat split; reflexivity.
Qed.

Lemma serve_globals search (c : ToolCall) (w : World) :
  globals (serve search c w) = globals w.
Proof.
  destruct c as [name|query num_results]; cbn [serve].
  - apply emit_globals.
  - unfold call_google_search. apply google_search_globals.
Qed.

Lemma serve_logger_level search (c : ToolCall) (w : World) :
  logger_level (serve search c w) = logger_level w.
Proof.
  destruct c as [name|query num_results]; cbn [serve].
  - apply emit_logger_level.
  - unfold call_google_search. apply google_search_logger_level.
Qed.

(** Hence the configuration survives any session of tool calls. *)
Lemma session_preserves_globals search (calls : list ToolCall) (w : World) :
  globals (session search calls w) = globals w.
Proof.
  revert w. induction calls as [|c calls IH]; intros w; [reflexivity|].
  change (session search (c :: calls) w)
    with (session search calls (serve search c w)).
  rewrite IH. apply serve_globals.
Qed.

Lemma session_preserves_logger_level search (calls : list ToolCall) (w : World) :
  logger_level (session search calls w) = logger_level w.
Proof.
  revert w. induction calls as [|c calls IH]; intros w; [reflexivity|].
  change (session search (c :: calls) w)
    with (session search calls (serve search c w)).
  rewrite IH. apply serve_logger_level.
Qed.

(** So an omitted [num_results] resolves to the same limit at any point of
    a session. *)
Lemma session_effective_limit search (calls : list ToolCall) (w : World) :
  effective_limit (session search calls w) None = effective_limit w None.
Proof.
  unfold effective_limit. rewrite session_preserves_globals. reflexivity.
Qed.

(** ** [int] on the decimal text of an integer *)

Lemma pretty_N_char_digit (d : N) :
  (d < 10)%N ->
  PyInt.digit_of (pretty_N_char d) = Some (Z.of_N d) /\
  Ascii.eqb (pretty_N_char d) "_"%char = false.
Proof.
  intros Hd.
  assert (d = 0 \/ d = 1 \/ d = 2 \/ d = 3 \/ d = 4 \/ d = 5 \/ d = 6 \/ d = 7
          \/ d = 8 \/ d = 9)%N as Hcases by lia.
  repeat (destruct Hcases as [->|Hcases]; [split; reflexivity|]).
  subst d. split; reflexivity.
Qed.

(** [pretty_N_go] writes the [d] digits of a number below [10 ^ d]; reading
    them back shifts the accumulator by [10 ^ d] and adds the number. *)
Lemma digits_pretty_N_go (x : N) :
  (0 < x)%N ->
  forall s, exists d : Z,
    0 < d /\
    10 ^ (d - 1) <= Z.of_N x < 10 ^ d /\
    PyInt.count_digits (pretty_N_go x s) = d + PyInt.count_digits s /\
    forall acc prev,
      PyInt.digits acc prev (pretty_N_go x s)
      = PyInt.digits (acc * 10 ^ d + Z.of_N x) true s.
Proof.
  induction (N.lt_wf_0 x) as [x _ IH]. intros Hx s.
  rewrite pretty_N_go_step by exact Hx.
  assert (Hr : (x `mod` 10 < 10)%N) by (apply N.mod_lt; lia).
  destruct (pretty_N_char_digit _ Hr) as [Hdigit Hunder].
  assert (Hdm : Z.of_N x = 10 * Z.of_N (x `div` 10) + Z.of_N (x `mod` 10)).
  { pose proof (N.div_mod x 10 ltac:(lia)) as H.
    rewrite H at 1. rewrite N2Z.inj_add, N2Z.inj_mul. reflexivity. }
  assert (Hr' : 0 <= Z.of_N (x `mod` 10) < 10).
  { split; [apply N2Z.is_nonneg|].
    change 10 with (Z.of_N 10). apply N2Z.inj_lt. exact Hr. }
  generalize dependent (Z.of_N (x `mod` 10)). intros r Hdigit Hdm Hr'.
  destruct (decide (x `div` 10 = 0)%N) as [Hq|Hq].
  - rewrite Hq in *. rewrite pretty_N_go_0. exists 1.
    change (10 ^ (1 - 1)) with 1. change (10 ^ 1) with 10.
    change (Z.of_N 0) with 0 in Hdm.
    split; [lia|]. split; [lia|]. split.
    + cbn [PyInt.count_digits]. rewrite Hdigit. reflexivity.
    + intros acc prev. cbn [PyInt.digits]. rewrite Hunder, Hdigit.
      f_equal. lia.
  - destruct (IH (x `div` 10)%N) with (s := String (pretty_N_char (x `mod` 10)) s)
      as (d & Hd & Hbound & Hcount & Hdigits).
    + apply N.div_lt; lia.
    + lia.
    + exists (d + 1).
      assert (Hpow : 10 ^ d = 10 * 10 ^ (d - 1)).
      { rewrite <- Z.pow_succ_r by lia. f_equal. lia. }
      assert (Hpow' : 10 ^ (d + 1) = 10 * 10 ^ d).
      { rewrite <- Z.pow_succ_r by lia. reflexivity. }
      replace (d + 1 - 1) with d by lia. rewrite Hpow'.
      remember (Z.of_N (x `div` 10)) as q eqn:Eq. clear Eq.
      remember (10 ^ d) as P eqn:EP. clear EP.
      remember (10 ^ (d - 1)) as A eqn:EA. clear EA.
      split; [lia|]. split; [lia|]. split.
      * rewrite Hcount. cbn [PyInt.count_digits]. rewrite Hdigit. lia.
      * intros acc prev. rewrite Hdigits.
        cbn [PyInt.digits]. rewrite Hunder, Hdigit. f_equal. lia.
Qed.

Lemma all_digits_pretty_N_go (x : N) (s : string) :
  all_digits s = true -> all_digits (pretty_N_go x s) = true.
Proof.
  revert s. induction (N.lt_wf_0 x) as [x _ IH]. intros s Hs.
  destruct (decide (x = 0)%N) as [->|Hx]; [exact Hs|].
  rewrite pretty_N_go_step by lia. apply IH.
  - apply N.div_lt; lia.
  - cbn [all_digits]. rewrite Hs, andb_true_r. apply bool_decide_eq_true.
    destruct (pretty_N_char_digit (x `mod` 10)) as [-> _]; [|eexists; reflexivity].
    apply N.mod_lt; lia.
Qed.

Lemma digit_not_space (a : ascii) :
  is_Some (PyInt.digit_of a) -> PyInt.is_space a = false.
Proof.
  unfold PyInt.digit_of, PyInt.is_space. intros [d Hd].
  destruct (_ && _) eqn:E in Hd; [|discriminate].
  apply andb_true_iff in E as [H1 H2].
  apply N.leb_le in H1. apply N.leb_le in H2.
  apply orb_false_iff. split.
  - apply andb_false_iff. right. apply N.leb_gt. lia.
  - apply N.eqb_neq. lia.
Qed.

Lemma lstrip_no_space (a : ascii) (s : string) :
  PyInt.is_space a = false -> PyInt.lstrip (String a s) = String a s.
Proof. intros H. cbn [PyInt.lstrip]. rewrite H. reflexivity. Qed.

Lemma rstrip_all_digits (s : string) :
  all_digits s = true -> PyInt.rstrip s = s.
Proof.
  induction s as [|a s IH]; [reflexivity|]. cbn [all_digits].
  intros [Ha Hs]%andb_true_iff. apply bool_decide_eq_true in Ha.
  cbn [PyInt.rstrip]. rewrite (IH Hs).
  destruct s; [|reflexivity]. rewrite digit_not_space by exact Ha. reflexivity.
Qed.

(** [int] reads a run of digits as such: no sign, nothing to strip. *)
Lemma int_all_digits (s : string) :
  all_digits s = true -> PyInt.int s = PyInt.capped_digits s.
Proof.
  intros Hs. unfold PyInt.int.
  destruct s as [|a s]; [reflexivity|].
  pose proof Hs as Hs'. cbn [all_digits] in Hs'.
  apply andb_true_iff in Hs' as [Ha _]. apply bool_decide_eq_true in Ha.
  rewrite lstrip_no_space by (apply digit_not_space; exact Ha).
  rewrite rstrip_all_digits by exact Hs.
  destruct Ha as [d Hd].
  destruct a as [[] [] [] [] [] [] [] []];
    try reflexivity; vm_compute in Hd; discriminate Hd.
Qed.

Lemma int_minus_all_digits (s : string) :
  all_digits s = true ->
  PyInt.int (String "-" s) = Z.opp <$> PyInt.capped_digits s.
Proof.
  intros Hs. unfold PyInt.int.
  rewrite lstrip_no_space by reflexivity.
  cbn [PyInt.rstrip]. rewrite rstrip_all_digits by exact Hs.
  destruct s; reflexivity.
Qed.

Lemma int_pretty_N_go (p : positive) :
  Z.pos p < 10 ^ PyInt.max_str_digits ->
  all_digits (pretty_N_go (N.pos p) "") = true /\
  PyInt.capped_digits (pretty_N_go (N.pos p) "") = Some (Z.pos p).
Proof.
  intros Hp. split; [apply all_digits_pretty_N_go; reflexivity|].
  destruct (digits_pretty_N_go (N.pos p) ltac:(lia) "")
    as (d & Hd & [Hlow _] & Hcount & Hdigits).
  unfold PyInt.capped_digits. rewrite Hcount, Hdigits.
  change (PyInt.count_digits "") with 0.
  assert (d - 1 < PyInt.max_str_digits) as Hcap.
  { apply (Z.pow_lt_mono_r_iff 10); [lia | unfold PyInt.max_str_digits; lia |].
    change (Z.of_N (N.pos p)) with (Z.pos p) in Hlow. lia. }
  destruct (Z.leb_spec (d + 0) PyInt.max_str_digits) as [_|Hgt]; [|lia].
  reflexivity.
Qed.

(** [int(str(n)) == n] for the integers whose decimal text is within the
    limit of 4300 digits. *)
Lemma int_pretty (n : Z) :
  Z.abs n < 10 ^ PyInt.max_str_digits -> PyInt.int (pretty n) = Some n.
Proof.
  destruct n as [|p|p]; intros Hn.
  - reflexivity.
  - destruct (int_pretty_N_go p Hn) as [Hd Hv].
    change (pretty (Z.pos p)) with (pretty_N_go (N.pos p) "").
    rewrite int_all_digits by exact Hd. exact Hv.
  - destruct (int_pretty_N_go p Hn) as [Hd Hv].
    change (pretty (Z.neg p)) with (String "-" (pretty_N_go (N.pos p) "")).
    rewrite int_minus_all_digits by exact Hd. rewrite Hv. reflexivity.
Qed.

Lemma lstrip_all_space (s : string) :
  all_space s = true -> all_space (PyInt.lstrip s) = true.
Proof.
  induction s as [|a s IH]; [reflexivity|]. intros Hs.
  cbn [PyInt.lstrip]. destruct (PyInt.is_space a); [|exact Hs].
  cbn [all_space] in Hs. apply andb_true_iff in Hs as [_ Hs]. exact (IH Hs).
Qed.

Lemma rstrip_head (s : string) :
  PyInt.rstrip s = EmptyString \/
  exists a s' r, s = String a s' /\ PyInt.rstrip s = String a r.
Proof.
  destruct s as [|a s']; [left; reflexivity|].
  cbn [PyInt.rstrip]. destruct (PyInt.rstrip s') as [|b r].
  - destruct (PyInt.is_space a); [left; reflexivity|].
    right. exists a, s', EmptyString. split; reflexivity.
  - right. exists a, s', (String b r). split; reflexivity.
Qed.

(** [int] refuses a text that is empty or made of white space only. *)
Lemma int_all_space (s : string) : all_space s = true -> PyInt.int s = None.
Proof.
  intros Hs. apply lstrip_all_space in Hs. unfold PyInt.int.
  destruct (rstrip_head (PyInt.lstrip s)) as [->|(a & s' & r & Heq & ->)].
  - reflexivity.
  - rewrite Heq in Hs. cbn [all_space] in Hs.
    apply andb_true_iff in Hs as [Ha _].
    destruct a as [[] [] [] [] [] [] [] []];
      try (vm_compute in Ha; discriminate Ha);
      unfold PyInt.capped_digits; destruct (_ <=? _)%Z; reflexivity.
Qed.

(** ** The configuration read at import *)

(** X2: for every integer [n] whose decimal text has at most 640 digits
    (below that length [int] applies no limit on the number of digits,
    however the interpreter is configured), zero and negative included:
    when the import reaches line 22 with [GOOGLE_SEARCH_MAX_RESULTS] set to
    that text, line 22 binds exactly [n] as the maximum ([int(str(n)) == n],
    no range check); the user agent is not affected. *)
Theorem module_init_reads_decimal_limit (environ : gmap string string) (n : Z) :
  Z.abs n < 10 ^ 640 ->
  module_init (<["GOOGLE_SEARCH_MAX_RESULTS" := pretty n]> environ)
  = Returned (mkGlobals (getenv environ "GOOGLE_SEARCH_USER_AGENT" "Mozilla/5.0") n).
Proof.
  intros Hn. unfold module_init, getenv.
  rewrite lookup_insert_eq, lookup_insert_ne by discriminate.
  cbn [default from_option id]. rewrite int_pretty; [reflexivity|].
  eapply Z.lt_le_trans; [exact Hn|].
  apply Z.pow_le_mono_r; unfold PyInt.max_str_digits; lia.
Qed.

Lemma module_init_reads_negative_limit :
  module_init (<["GOOGLE_SEARCH_MAX_RESULTS" := pretty (-7)]> ∅)
  = Returned (mkGlobals (getenv ∅ "GOOGLE_SEARCH_USER_AGENT" "Mozilla/5.0") (-7)).
Proof.
  apply (module_init_reads_decimal_limit ∅ (-7)). reflexivity.
Defined.

(** X3: a [GOOGLE_SEARCH_MAX_RESULTS] that is set to the empty string or to
    white space only does not count as unset: line 22 raises [ValueError]
    instead of taking the default 10. *)
Theorem module_init_blank_limit_fails (environ : gmap string string) (text : string) :
  environ !! "GOOGLE_SEARCH_MAX_RESULTS" = Some text ->
  all_space text = true ->
  exists msg, module_init environ = Raised (ValueError msg).
Proof.
  intros Hset Hblank. unfold module_init, getenv. rewrite Hset.
  cbn [default from_option id]. rewrite (int_all_space _ Hblank).
  eexists. reflexivity.
Qed.

Lemma module_init_empty_limit_fails :
  exists msg,
    module_init (<["GOOGLE_SEARCH_MAX_RESULTS" := ""]> ∅)
    = Raised (ValueError msg).
Proof.
  apply (module_init_blank_limit_fails
           (<["GOOGLE_SEARCH_MAX_RESULTS" := ""]> ∅) ""); reflexivity.
Defined.

(** ** The entry point *)

(** X5: line 96 does not range-check the port: for every integer [n] whose
    decimal text has at most 640 digits, negative or above 65535 included,
    when the script reaches line 96 with [MCP_PORT] set to that text it
    calls [uvicorn.run] with [port=n] and the host the environment gives. *)
Theorem main_args_port_unchecked (environ : gmap string string) (n : Z) :
  Z.abs n < 10 ^ 640 ->
  main_args (<["MCP_PORT" := pretty n]> environ)
  = Returned (mkUvicorn "app.main:app" (getenv environ "MCP_HOST" "127.0.0.1")
                n true).
Proof.
  intros Hn. unfold main_args, getenv.
  rewrite lookup_insert_eq, lookup_insert_ne by discriminate.
  cbn [default from_option id]. rewrite int_pretty; [reflexivity|].
  eapply Z.lt_le_trans; [exact Hn|].
  apply Z.pow_le_mono_r; unfold PyInt.max_str_digits; lia.
Qed.

Lemma main_args_port_70000 :
  main_args (<["MCP_PORT" := pretty 70000]> ∅)
  = Returned (mkUvicorn "app.main:app" (getenv ∅ "MCP_HOST" "127.0.0.1")
                70000 true).
Proof.
  apply (main_args_port_unchecked ∅ 70000). reflexivity.
Defined.

(** X6: an [MCP_PORT] set to the empty string or to white space only makes
    the script raise [ValueError] before uvicorn is started; port 8000 is
    taken only when the variable is absent. *)
Theorem main_args_blank_port_fails (environ : gmap string string) (text : string) :
  environ !! "MCP_PORT" = Some text ->
  all_space text = true ->
  exists msg, main_args environ = Raised (ValueError msg).
Proof.
  intros Hset Hblank. unfold main_args, getenv. rewrite Hset.
  cbn [default from_option id]. rewrite (int_all_space _ Hblank).
  eexists. reflexivity.
Qed.

Lemma main_args_space_port_fails :
  exists msg, main_args (<["MCP_PORT" := " "]> ∅) = Raised (ValueError msg).
Proof.
  apply (main_args_blank_port_fails (<["MCP_PORT" := " "]> ∅) " "); reflexivity.
Defined.

(** ** More on one invocation of [google_search] *)

(** X7: URLs the provider yielded before it raised leave no trace: two
    providers that raise the same exception on the call give the same
    result, the same log and the same world, whatever each had yielded. *)
Theorem google_search_drops_partial_results
    (search1 search2 : Provider) query num_results w e :
  gen_raises (search1 (provider_calls w) (search_call_of w query num_results))
    = Some e ->
  gen_raises (search2 (provider_calls w) (search_call_of w query num_results))
    = Some e ->
  google_search search1 query num_results w
  = google_search search2 query num_results w.
Proof.
  intros H1 H2. rewrite !google_search_run.
  unfold provider_outcome, py_list. rewrite H1, H2. reflexivity.
Qed.

Lemma google_search_drops_partial_results_rate_limited :
  google_search rate_limited "weather today" (Some 3) default_world
  = google_search (raising (HTTPError "429 Client Error: Too Many Requests"))
      "weather today" (Some 3) default_world.
Proof.
  apply (google_search_drops_partial_results rate_limited
           (raising (HTTPError "429 Client Error: Too Many Requests"))
           "weather today" (Some 3) default_world
           (HTTPError "429 Client Error: Too Many Requests")); reflexivity.
Defined.

(** X8: a returned list that is not a single string starting with
    "Error performing search: " was not made by the handler: it is the
    provider's own list (the provider finished without raising and yielded
    exactly that list) or, when the provider raised an instance of a
    subclass of [StopIteration], the list that exception carries as its
    value. *)
Theorem google_search_unshaped_result_is_genuine search query num_results w r :
  fst (google_search search query num_results w) = Returned r ->
  ~ error_shaped r ->
  provider_outcome search w query num_results = Returned r \/
  exists e, provider_outcome search w query num_results = Raised e /\
            awaited e = AwaitValue (Links r).
Proof.
  rewrite google_search_result. unfold result_of_answer, after_value, after_await.
  intros Hr Hshape.
  assert (Hhandler : forall e',
    (if exn_is_Exception e'
     then match exn_format e' with
          | Str _ => match exn_str e' with
                     | Str s => Returned (error_result s)
                     | StrRaises x => Raised x
                     end
          | StrRaises x => Raised x
          end
     else Raised e') = Returned r -> False).
  { intros e' H. destruct (exn_is_Exception e'); [|discriminate].
    destruct (exn_format e') as [text|]; [|discriminate].
    destruct (exn_str e') as [msg|]; [|discriminate].
    injection H as <-. apply Hshape. exists msg. reflexivity. }
  destruct (provider_outcome _ _ _ _) as [links| |e|];
    [left; exact Hr | discriminate | | discriminate].
  destruct (awaited e) as [e'|[l|m|x]|] eqn:Hawait.
  - destruct (Hhandler e' Hr).
  - injection Hr as <-. right. exists e. split; [reflexivity | exact Hawait].
  - discriminate.
  - destruct (Hhandler x Hr).
  - discriminate.
Qed.

Lemma google_search_empty_result_is_genuine :
  provider_outcome (answering []) default_world "weather today" None
    = Returned [] \/
  exists e,
    provider_outcome (answering []) default_world "weather today" None
      = Raised e /\
    awaited e = AwaitValue (Links []).
Proof.
  apply (google_search_unshaped_result_is_genuine (answering []) "weather today"
           None default_world []).
  - reflexivity.
  - intros [msg Hmsg]. discriminate Hmsg.
Defined.

(** The log at the end of an invocation that logged [r] last. *)
Lemma emit_after_call_log r w query num_results :
  log (emit r (after_call w query num_results))
  = (log w
     ++ (if accepts w INFO then [announcement w query num_results] else [])
     ++ (if accepts w (log_level r) then [r] else []))%list.
Proof.
  rewrite emit_log, after_call_log, <- app_assoc.
  unfold accepts. rewrite after_call_logger_level. reflexivity.
Qed.

(** X9: the return value alone does not tell a failure from a success: when
    the exception the await raises is caught and its texts evaluate, a
    provider yielding the one string "Error performing search: " + str(e)
    makes [google_search] return the same list after the same provider call;
    the two runs differ in the log only, provided the logger admits
    [ERROR]. *)
Theorem google_search_error_shape_ambiguous
    (search_ok search_err : Provider) query num_results w e e' text s :
  provider_outcome search_err w query num_results = Raised e ->
  awaited e = AwaitRaises e' ->
  handled e' text s ->
  provider_outcome search_ok w query num_results = Returned (error_result s) ->
  fst (google_search search_ok query num_results w)
    = fst (google_search search_err query num_results w) /\
  provider_calls (snd (google_search search_ok query num_results w))
    = provider_calls (snd (google_search search_err query num_results w)) /\
  (logger_level w <= 40 ->
   log (snd (google_search search_ok query num_results w))
     <> log (snd (google_search search_err query num_results w))).
Proof.
  intros Herr Hawait (Hexn & Hformat & Hstr) Hok.
  rewrite !google_search_run, Herr, Hok, Hawait.
  unfold except_clause. rewrite Hexn, Hformat, Hstr.
  cbn [fst snd]. rewrite !emit_provider_calls.
  split; [reflexivity|]. split; [reflexivity|].
  intros Hlevel. rewrite !emit_after_call_log.
  assert (accepts w ERROR = true) as Herror
    by (apply Z.leb_le; exact Hlevel).
  cbn [log_level found_record error_record]. rewrite Herror.
  intros Heq. apply app_inv_head in Heq. apply app_inv_head in Heq.
  destruct (accepts w INFO); discriminate Heq.
Qed.

Lemma google_search_error_shape_ambiguous_503 :
  fst (google_search (answering (error_result "503 Server Error")) "news" None
         default_world)
    = fst (google_search (raising (HTTPError "503 Server Error")) "news" None
             default_world) /\
  provider_calls
    (snd (google_search (answering (error_result "503 Server Error")) "news" None
            default_world))
    = provider_calls
        (snd (google_search (raising (HTTPError "503 Server Error")) "news" None
                default_world)) /\
  (logger_level default_world <= 40 ->
   log (snd (google_search (answering (error_result "503 Server Error")) "news"
               None default_world))
     <> log (snd (google_search (raising (HTTPError "503 Server Error")) "news"
                    None default_world))).
Proof.
  apply (google_search_error_shape_ambiguous
           (answering (error_result "503 Server Error"))
           (raising (HTTPError "503 Server Error")) "news" None default_world
           (HTTPError "503 Server Error") (HTTPError "503 Server Error")
           "503 Server Error" "503 Server Error");
    repeat split; reflexivity.
Defined.

Lemma Exists_ERROR_app (l1 l2 : list LogRecord) :
  Forall (fun r => log_level r = INFO) l1 ->
  Exists (fun r => log_level r = ERROR) (l1 ++ l2)
  <-> Exists (fun r => log_level r = ERROR) l2.
Proof.
  intros Hinfo. rewrite Exists_app. split; [|auto].
  intros [H|H]; [|exact H].
  apply Exists_exists in H as (r & Hin & Hr).
  rewrite Forall_forall in Hinfo. rewrite (Hinfo r Hin) in Hr. discriminate Hr.
Qed.

Lemma announced_is_INFO w query num_results :
  Forall (fun r => log_level r = INFO)
         (if accepts w INFO then [announcement w query num_results] else []).
Proof. destruct (accepts w INFO); repeat constructor. Qed.

Ltac no_error_record Hann Hfound :=
  split;
  [ intros H; exfalso;
    first [ exact (Hfound _ H)
          | apply Exists_exists in H as (r & Hin & Hr);
            rewrite Forall_forall in Hann; rewrite (Hann r Hin) in Hr;
            discriminate Hr ]
  | intros (_ & e0 & t0 & Hsome & He0 & Hf0);
    try discriminate Hsome; injection Hsome as <-; congruence ].

(** X10: an invocation keeps the log it found and appends to it; among the
    records it appends there is one of level ERROR exactly when an instance
    of [Exception] is raised inside the [try] (by the await, or by [len] on
    what the await evaluated to), so that the handler of line 76 runs, the
    formatting of that exception at line 77 evaluates, and the level of the
    logger admits [ERROR]. *)
Theorem google_search_logs_error_iff search query num_results w :
  exists added,
    log (snd (google_search search query num_results w)) = (log w ++ added)%list /\
    (Exists (fun r => log_level r = ERROR) added <->
     logger_level w <= 40 /\
     exists e' text,
       raised_in_try (provider_outcome search w query num_results) = Some e' /\
       exn_is_Exception e' = true /\
       exn_format e' = Str text).
Proof.
  assert (Hnil : ~ Exists (fun r : LogRecord => log_level r = ERROR) []).
  { intros H. apply Exists_nil in H. exact H. }
  assert (Hfound : forall n,
             ~ Exists (fun r => log_level r = ERROR)
                 (if accepts w INFO then [found_record query n] else [])).
  { intros n H. destruct (accepts w INFO); [|exact (Hnil H)].
    apply Exists_cons in H as [H|H]; [discriminate H | exact (Hnil H)]. }
  assert (Herror : forall text,
             Exists (fun r => log_level r = ERROR)
               (if accepts w ERROR then [error_record text] else [])
             <-> logger_level w <= 40).
  { intros text. unfold accepts. cbn [level_no].
    destruct (Z.leb_spec (logger_level w) 40) as [Hle|Hgt].
    - split; [intros _; exact Hle|]. intros _. apply Exists_cons_hd. reflexivity.
    - split; [intros H; destruct (Hnil H) | lia]. }
  pose proof (announced_is_INFO w query num_results) as Hann.
  unfold raised_in_try.
  run_cases; cbn [snd];
    rewrite ?emit_after_call_log, ?after_call_log;
    eexists; (split; [reflexivity|]);
    rewrite ?(Exists_ERROR_app _ _ Hann); cbn [log_level error_record];
    first [ rewrite Herror;
            (split; [intros Hle; split; [exact Hle | eauto 10]
                    | intros [Hle _]; exact Hle])
          | no_error_record Hann Hfound ].
Qed.

(** ** Sessions of tool calls *)

Lemma session_search_calls_globals (w1 w2 : World) (calls : list ToolCall) :
  globals w1 = globals w2 ->
  session_search_calls w1 calls = session_search_calls w2 calls.
Proof.
  intros Hg. unfold session_search_calls, search_call_of, effective_limit.
  rewrite Hg. reflexivity.
Qed.

Lemma serve_provider_calls search (c : ToolCall) (w : World) :
  provider_calls (serve search c w)
  = (provider_calls w ++ session_search_calls w [c])%list.
Proof.
  destruct c as [name|query num_results]; cbn [serve].
  - cbn [session_search_calls omap]. rewrite app_nil_r.
    apply emit_provider_calls.
  - unfold call_google_search. rewrite google_search_calls. reflexivity.
Qed.

(** The provider's trace after a session. *)
Lemma session_trace search (calls : list ToolCall) (w : World) :
  provider_calls (session search calls w)
  = (provider_calls w ++ session_search_calls w calls)%list.
Proof.
  revert w. induction calls as [|c calls IH]; intros w.
  - cbn. rewrite app_nil_r. reflexivity.
  - change (session search (c :: calls) w)
      with (session search calls (serve search c w)).
    rewrite IH, serve_provider_calls, <- app_assoc. f_equal.
    rewrite (session_search_calls_globals (serve search c w) w)
      by apply serve_globals.
    change (c :: calls) with ([c] ++ calls)%list.
    unfold session_search_calls. rewrite omap_app. reflexivity.
Qed.

Lemma session_search_calls_length (w : World) (calls : list ToolCall) :
  length (session_search_calls w calls) = length (filter is_search_call calls).
Proof.
  induction calls as [|[name|query num_results] calls IH]; cbn.
  - reflexivity.
  - exact IH.
  - exact (f_equal S IH).
Qed.

Lemma length_if_singleton {A} (b : bool) (x : A) :
  length (if b then [x] else []) = (if b then 1 else 0)%nat.
Proof. destruct b; reflexivity. Qed.

(** One tool call appends at most two records, and at least one when the
    logger admits [INFO]. *)
Lemma serve_log search (c : ToolCall) (w : World) :
  exists added,
    log (serve search c w) = (log w ++ added)%list /\
    (length added <= 2)%nat /\
    (logger_level w <= 20 -> (1 <= length added)%nat).
Proof.
  assert (Hinfo : logger_level w <= 20 -> accepts w INFO = true)
    by (intros H; apply Z.leb_le; exact H).
  destruct c as [name|query num_results]; cbn [serve].
  - eexists. split; [apply emit_log|]. rewrite length_if_singleton.
    split; [destruct (accepts _ _); lia|].
    intros H. cbn [log_level]. rewrite (Hinfo H). lia.
  - unfold call_google_search.
    run_cases; cbn [snd];
      rewrite ?emit_after_call_log, ?after_call_log;
      (eexists; split; [reflexivity|]);
      rewrite ?length_app, !length_if_singleton;
      (split; [repeat destruct (accepts _ _); lia|]);
      intros H; rewrite (Hinfo H); lia.
Qed.

(** X11: over any session the provider receives exactly the [google_search]
    calls of the session, in their order, each with its query unchanged, its
    limit or the configured maximum, and the configured user agent; calls of
    [hello_world] add nothing, so the provider is called once per
    [google_search] call. *)
Theorem session_calls_provider_once_per_search search (calls : list ToolCall) w :
  provider_calls (session search calls w)
    = (provider_calls w ++ session_search_calls w calls)%list /\
  length (provider_calls (session search calls w))
    = (length (provider_calls w) + length (filter is_search_call calls))%nat.
Proof.
  rewrite session_trace. split; [reflexivity|].
  rewrite length_app, session_search_calls_length. reflexivity.
Qed.

(** X12: the configuration of the environment reaches the provider: in a
    session that runs under the globals the import computed, every call the
    provider receives carries the user agent of the environment (or
    "Mozilla/5.0"), whatever the tool calls are. *)
Theorem session_uses_configured_user_agent
    search (environ : gmap string string) G (calls : list ToolCall) w :
  module_init environ = Returned G ->
  globals w = G ->
  exists received,
    provider_calls (session search calls w) = (provider_calls w ++ received)%list /\
    Forall (fun c => call_user_agent c
                     = getenv environ "GOOGLE_SEARCH_USER_AGENT" "Mozilla/5.0")
           received.
Proof.
  intros Hinit Hg. exists (session_search_calls w calls).
  split; [apply session_trace|].
  unfold module_init in Hinit.
  destruct (PyInt.int _) as [n|]; [|discriminate].
  injection Hinit as <-.
  induction calls as [|[name|query num_results] calls IH]; cbn.
  - constructor.
  - exact IH.
  - constructor; [|exact IH]. cbn. rewrite Hg. reflexivity.
Qed.

Lemma session_uses_configured_user_agent_default :
  exists received,
    provider_calls
      (session echo [CallGoogleSearch "news" None; CallHelloWorld None;
                     CallGoogleSearch "weather" (Some (Some 3))] default_world)
      = (provider_calls default_world ++ received)%list /\
    Forall (fun c => call_user_agent c
                     = getenv ∅ "GOOGLE_SEARCH_USER_AGENT" "Mozilla/5.0")
           received.
Proof.
  apply (session_uses_configured_user_agent echo ∅ (mkGlobals "Mozilla/5.0" 10));
    reflexivity.
Defined.

(** X13: the log only grows: a session keeps every record the logger had
    accepted, in place, and appends at most two records per tool call; when
    the level of the logger admits [INFO] it appends at least one per tool
    call (at a higher level a call may leave no record at all). *)
Theorem session_log_grows search (calls : list ToolCall) w :
  exists added,
    log (session search calls w) = (log w ++ added)%list /\
    (length added <= 2 * length calls)%nat /\
    (logger_level w <= 20 -> (length calls <= length added)%nat).
Proof.
  revert w. induction calls as [|c calls IH]; intros w.
  - exists []. cbn. rewrite app_nil_r. split; [reflexivity | lia].
  - change (session search (c :: calls) w)
      with (session search calls (serve search c w)).
    destruct (IH (serve search c w)) as (rest & Hrest & Hmax & Hmin).
    destruct (serve_log search c w) as (first & Hfirst & Hmax1 & Hmin1).
    rewrite serve_logger_level in Hmin.
    exists (first ++ rest)%list. rewrite Hrest, Hfirst, <- app_assoc.
    split; [reflexivity|]. rewrite length_app. cbn [length].
    split; [lia|]. intros Hlevel. specialize (Hmin Hlevel).
    specialize (Hmin1 Hlevel). lia.
Qed.

(** At [WARNING] a session of [hello_world] calls leaves the log empty. *)
Example session_quiet :
  log (session echo [CallHelloWorld None; CallHelloWorld (Some "Ada")] quiet_world)
  = [].
Proof. reflexivity. Qed.

(** X14: calls of [hello_world] do not influence a search: after a session
    made of [hello_world] calls only, [google_search] sends the provider the
    same call, on the same history, and returns the same result as it would
    have before the session. *)
Theorem google_search_after_hello_world
    search (calls : list ToolCall) query num_results w :
  filter is_search_call calls = [] ->
  provider_calls (session search calls w) = provider_calls w /\
  search_call_of (session search calls w) query num_results
    = search_call_of w query num_results /\
  fst (google_search search query num_results (session search calls w))
    = fst (google_search search query num_results w).
Proof.
  intros Hhello.
  assert (Hcalls : provider_calls (session search calls w) = provider_calls w).
  { rewrite session_trace.
    pose proof (session_search_calls_length w calls) as Hlen.
    rewrite Hhello in Hlen. destruct (session_search_calls w calls); [|discriminate].
    apply app_nil_r. }
  assert (Hcall : search_call_of (session search calls w) query num_results
                  = search_call_of w query num_results).
  { unfold search_call_of, effective_limit.
    rewrite session_preserves_globals. reflexivity. }
  split; [exact Hcalls|]. split; [exact Hcall|].
  rewrite !google_search_result. unfold provider_outcome.
  rewrite Hcalls, Hcall. reflexivity.
Qed.

Lemma google_search_after_two_hello_world :
  let calls := [CallHelloWorld None; CallHelloWorld (Some "Ada")] in
  provider_calls (session flaky calls default_world)
    = provider_calls default_world /\
  search_call_of (session flaky calls default_world) "news" None
    = search_call_of default_world "news" None /\
  fst (google_search flaky "news" None (session flaky calls default_world))
    = fst (google_search flaky "news" None default_world).
Proof.
  apply (google_search_after_hello_world flaky
           [CallHelloWorld None; CallHelloWorld (Some "Ada")] "news" None
           default_world).
  reflexivity.
Defined.

(** ** More on [hello_world] and on the status endpoint *)

Lemma string_length_app (s t : string) :
  String.length (s +:+ t) = (String.length s + String.length t)%nat.
Proof.
  induction s as [|a s IH]; [reflexivity|].
  change (S (String.length (s +:+ t))
          = S (String.length s + String.length t))%nat.
  rewrite IH. reflexivity.
Qed.

Lemma string_app_inv_tail (s1 s2 t : string) : s1 +:+ t = s2 +:+ t -> s1 = s2.
Proof.
  revert s2. induction s1 as [|a s1 IH]; intros [|b s2] H.
  - reflexivity.
  - apply (f_equal String.length) in H.
    change (String.length t = S (String.length (s2 +:+ t))) in H.
    rewrite string_length_app in H. lia.
  - apply (f_equal String.length) in H.
    change (S (String.length (s1 +:+ t)) = String.length t) in H.
    rewrite string_length_app in H. lia.
  - change (String a (s1 +:+ t) = String b (s2 +:+ t)) in H.
    injection H as -> H. f_equal. exact (IH _ H).
Qed.

(** X15: the greeting determines the name: two calls of [hello_world] that
    return the same text were given the same name. *)
Theorem hello_world_injective (name1 name2 : string) (w1 w2 : World) :
  fst (hello_world name1 w1) = fst (hello_world name2 w2) -> name1 = name2.
Proof.
  cbn. intros [= H].
  exact (string_app_inv_tail name1 name2 "! Welcome to Manus MCP." H).
Qed.

Lemma hello_world_injective_Ada :
  "Ada" = "Ada".
Proof.
  apply (hello_world_injective "Ada" "Ada" default_world
           (snd (hello_world "Bob" default_world))).
  reflexivity.
Defined.

(** X16: the status endpoint advertises the tools of the server and nothing
    else: a name is among its capabilities exactly when it is the name a
    tool is registered under, no name is listed twice, and serving the
    endpoint touches neither the log, the provider nor the configuration. *)
Theorem root_capabilities_are_the_tools (w : World) :
  exists info,
    root w = (Returned info, w) /\
    NoDup (info_capabilities info) /\
    forall name : string,
      name ∈ info_capabilities info <-> exists c : ToolCall, tool_name c = name.
Proof.
  eexists. split; [reflexivity|]. cbn [info_capabilities]. split.
  - apply NoDup_cons. split; [|apply NoDup_singleton].
    intros H. apply list_elem_of_singleton in H. discriminate H.
  - intros name. rewrite !elem_of_cons, elem_of_nil. split.
    + intros [->|[->|[]]].
      * exists (CallHelloWorld None). reflexivity.
      * exists (CallGoogleSearch "" None). reflexivity.
    + intros [[arg|query num_results] <-]; cbn; auto.
Qed.
